(** * Process-tree termination (src/main/utils/processUtils.ts)

    A shallow embedding of [killProcessTree] and [killProcessTreeAsync].
    The two functions only talk to the outside: they run [pgrep] and
    [taskkill] through [spawnSync], ask [pidtree] for descendants, call
    [process.kill] and call the [kill] method of the handle they were given.
    The outside is a record of oracles over an abstract world; every call of
    an oracle is logged, with its answer, so that the order and the number of
    the calls can be stated.  A JavaScript computation is a function from the
    world to an outcome, the new world and the events it emitted. *)

From Stdlib Require Import List String Ascii ZArith Lia Bool Permutation.
From Stdlib Require DecimalString DecimalPos.
Import ListNotations.
Open Scope string_scope.
Open Scope Z_scope.
Open Scope list_scope.

(** ** JavaScript values *)

(** The numbers a process identifier can be: an integer, or [NaN], which is
    what [Number] makes of a line that is not a numeral. *)
Inductive number : Type :=
  | Num (z : Z)
  | NaN.

(** [NodeJS.Signals] is a union of string literals. *)
Definition Signals : Type := string.

Definition SIGKILL : Signals := "SIGKILL".

(** The value carried by a [throw]. *)
Definition JsError : Type := string.

(** How a call into the outside ends. *)
Inductive completion (A : Type) : Type :=
  | Normal (a : A)
  | Abrupt (e : JsError).
Arguments Normal {A} a.
Arguments Abrupt {A} e.

(** Truthiness of a [number | undefined]: [undefined], [0] and [NaN] are
    falsy. *)
Definition truthy (pid : option number) : bool :=
  match pid with
  | Some (Num z) => negb (z =? 0)
  | Some NaN => false
  | None => false
  end.

(** ** The string operations of the child-list parser *)

Module Js.

(** White space of [trim] and of [Number], on the ASCII range. *)
Definition isWhite (c : ascii) : bool :=
  let n := nat_of_ascii c in
  ((9 <=? n) && (n <=? 13))%nat || (n =? 32)%nat.

Fixpoint trimStart (s : string) : string :=
  match s with
  | EmptyString => EmptyString
  | String c r => if isWhite c then trimStart r else s
  end.

Fixpoint trimEnd (s : string) : string :=
  match s with
  | EmptyString => EmptyString
  | String c r =>
      match trimEnd r with
      | EmptyString => if isWhite c then EmptyString else String c EmptyString
      | r' => String c r'
      end
  end.

Definition trim (s : string) : string := trimEnd (trimStart s).

(** [s.split('\n')]: the pieces between line feeds; the empty string has
    one empty piece. *)
Fixpoint split_lf (s : string) : list string :=
  match s with
  | EmptyString => [EmptyString]
  | String c r =>
      if (nat_of_ascii c =? 10)%nat then EmptyString :: split_lf r
      else match split_lf r with
           | h :: t => String c h :: t
           | [] => [String c EmptyString]
           end
  end.

(** [Boolean] on a string: only the empty string is falsy. *)
Definition Boolean (s : string) : bool :=
  match s with
  | EmptyString => false
  | String _ _ => true
  end.

(** A non-empty run of decimal digits, read as an integer. *)
Definition unsignedDigits (s : string) : option Z :=
  match s with
  | EmptyString => None
  | String _ _ => option_map Z.of_uint (DecimalString.NilEmpty.uint_of_string s)
  end.

(** [Number] on a string: white space is stripped, the empty string is
    [0], a signed run of decimal digits is its value.  The other
    numerals of the language (fractions, exponents, radix prefixes,
    [Infinity]) have no integer value to give and come out as [NaN]
    here; [pgrep] prints decimal identifiers only. *)
Definition Number (s : string) : number :=
  match trim s with
  | EmptyString => Num 0
  | String c r as t =>
      if (nat_of_ascii c =? 45)%nat then
        match unsignedDigits r with Some z => Num (- z) | None => NaN end
      else if (nat_of_ascii c =? 43)%nat then
        match unsignedDigits r with Some z => Num z | None => NaN end
      else
        match unsignedDigits t with Some z => Num z | None => NaN end
  end.

(** [String] on a number. *)
Definition toString (n : number) : string :=
  match n with
  | Num z => DecimalString.NilZero.string_of_int (Z.to_int z)
  | NaN => "NaN"
  end.

(** No character of [s] is white space. *)
Fixpoint noWhite (s : string) : bool :=
  match s with
  | EmptyString => true
  | String c r => negb (isWhite c) && noWhite r
  end.

(** [s] starts with a character that is no sign. *)
Definition startsUnsigned (s : string) : bool :=
  match s with
  | EmptyString => false
  | String c _ =>
      negb (nat_of_ascii c =? 45)%nat && negb (nat_of_ascii c =? 43)%nat
  end.

End Js.

(** ** The outside *)

(** What [spawnSync] returns; [stdout] is the only field that is read, a
    string or [null]. *)
Record SpawnSyncReturns : Type := mkSpawnSyncReturns {
  stdout : option string
}.

(** The two option objects passed to [spawnSync]. *)
Inductive SpawnSyncOptions : Type :=
  | StdioIgnore
  | EncodingUtf8.

(** One call into the outside, with its answer. *)
Inductive Event : Type :=
  | EvSpawnSync (command : string) (args : list string)
                (options : SpawnSyncOptions)
                (r : completion SpawnSyncReturns)
  | EvProcessKill (p : number) (signal : Signals) (r : completion unit)
  | EvTargetKill (signal : Signals) (r : completion unit)
  | EvPidtree (p : number) (r : completion (list number)).

(** How a computation ends: it returns, it throws, or the model ran out of
    fuel before it did either. *)
Inductive result (A : Type) : Type :=
  | Ret (a : A)
  | Throw (e : JsError)
  | OutOfFuel.
Arguments Ret {A} a.
Arguments Throw {A} e.
Arguments OutOfFuel {A}.

Section Host.

Context {World : Type}.

(** [ProcessLike] and [ChildProcess]: an object that may have a [pid] and
    whose [kill] method is looked for before it is called. *)
Record ProcessLike : Type := mkProcessLike {
  pid : option number;
  kill : option (Signals -> World -> completion unit * World)
}.

(** [number | ChildProcess | ProcessLike] *)
Inductive Target : Type :=
  | TNumber (n : number)
  | TObject (o : ProcessLike).

(** The platform flag and the imported functions. *)
Record Env : Type := mkEnv {
  isWindows : bool;
  spawnSync : string -> list string -> SpawnSyncOptions ->
              World -> completion SpawnSyncReturns * World;
  process_kill : number -> Signals -> World -> completion unit * World;
  pidtree : number -> World -> completion (list number) * World
}.

(** ** Computations *)

Definition M (A : Type) : Type := World -> result A * World * list Event.

Definition ret {A} (a : A) : M A := fun w => (Ret a, w, []).

Definition bind {A B} (m : M A) (f : A -> M B) : M B :=
  fun w =>
    match m w with
    | (Ret a, w1, t1) =>
        match f a w1 with (r, w2, t2) => (r, w2, t1 ++ t2) end
    | (Throw e, w1, t1) => (Throw e, w1, t1)
    | (OutOfFuel, w1, t1) => (OutOfFuel, w1, t1)
    end.

(** [try { m } catch { h }]; running out of fuel is not an exception. *)
Definition tryCatch {A} (m : M A) (h : M A) : M A :=
  fun w =>
    match m w with
    | (Throw _, w1, t1) =>
        match h w1 with (r, w2, t2) => (r, w2, t1 ++ t2) end
    | other => other
    end.

(** [for (const x of xs) body(x)] *)
Fixpoint forOf {A} (xs : list A) (body : A -> M unit) : M unit :=
  match xs with
  | [] => ret tt
  | x :: rest => bind (body x) (fun _ => forOf rest body)
  end.

Definition external {A} (c : World -> completion A * World)
           (ev : completion A -> Event) : M A :=
  fun w =>
    match c w with
    | (Normal a, w1) => (Ret a, w1, [ev (Normal a)])
    | (Abrupt e, w1) => (Throw e, w1, [ev (Abrupt e)])
    end.

Definition outOfFuel {A} : M A := fun w => (OutOfFuel, w, []).

End Host.

Arguments ProcessLike : clear implicits.
Arguments Target : clear implicits.
Arguments Env : clear implicits.
Arguments M : clear implicits.

Declare Scope js_scope.
Delimit Scope js_scope with js.
Notation "x <- m ;; k" := (bind m (fun x => k))
  (at level 61, m at next level, right associativity) : js_scope.
Notation "m ;; k" := (bind m (fun _ => k))
  (at level 61, right associativity) : js_scope.
Open Scope js_scope.

(** [try { m } catch { }]: whatever [m] throws is dropped. *)
Definition tryIgnore {World : Type} (m : M World unit) : M World unit :=
  tryCatch m (ret tt).

(** ** The two functions *)

Section ProcessUtils.

Context {World : Type}.
Variable env : Env World.

Definition call_spawnSync (command : string) (args : list string)
           (options : SpawnSyncOptions) : M World SpawnSyncReturns :=
  external (spawnSync env command args options)
           (EvSpawnSync command args options).

Definition call_process_kill (p : number) (signal : Signals) : M World unit :=
  external (process_kill env p signal) (EvProcessKill p signal).

Definition call_pidtree (p : number) : M World (list number) :=
  external (pidtree env p) (EvPidtree p).

Definition call_target_kill
           (k : Signals -> World -> completion unit * World)
           (signal : Signals) : M World unit :=
  external (k signal) (EvTargetKill signal).

(** Lines 32-37 and 92-97: the identifier of the target. *)
Definition extractPid (target : Target World) : option number :=
  match target with
  | TNumber n => Some n
  | TObject o => pid o
  end.

(** Lines 39-49 and 99-108: no identifier; the handle's own [kill] is
    tried, and the function returns. *)
Definition killDirectly (target : Target World) (signal : Signals)
  : M World unit :=
  match target with
  | TNumber _ => ret tt
  | TObject o =>
      match kill o with
      | Some k => tryIgnore (call_target_kill k signal)
      | None => ret tt
      end
  end.

(** Line 60: [stdout.trim().split('\n').filter(Boolean).map(Number)] *)
Definition parseChildPids (out : string) : list number :=
  map Js.Number (filter Js.Boolean (Js.split_lf (Js.trim out))).

(** [killProcessTree(target, signal = 'SIGKILL')].  The recursion follows
    what [pgrep] answers, so it is cut by [fuel]. *)
Fixpoint killProcessTree (fuel : nat) (target : Target World)
         (signal : option Signals) : M World unit :=
  match fuel with
  | O => outOfFuel
  | S fuel' =>
      let signal := match signal with Some s => s | None => SIGKILL end in
      match extractPid target with
      | Some p =>
          if truthy (Some p) then
            tryIgnore
              (if isWindows env then
                 call_spawnSync "taskkill"
                   ["/pid"; Js.toString p; "/t"; "/f"] StdioIgnore ;;
                 ret tt
               else
                 tryIgnore
                   (result <- call_spawnSync "pgrep"
                                ["-P"; Js.toString p] EncodingUtf8 ;;
                    match stdout result with
                    | Some out =>
                        if Js.Boolean out then
                          forOf (parseChildPids out)
                            (fun childPid =>
                               killProcessTree fuel' (TNumber childPid)
                                               (Some signal))
                        else ret tt
                    | None => ret tt
                    end) ;;
                 tryIgnore (call_process_kill p signal))
          else killDirectly target signal
      | None => killDirectly target signal
      end
  end.

(** [killProcessTreeAsync(target, signal = 'SIGKILL')]; the [await] is
    the one call of [pidtree]. *)
Definition killProcessTreeAsync (target : Target World)
           (signal : option Signals) : M World unit :=
  let signal := match signal with Some s => s | None => SIGKILL end in
  match extractPid target with
  | Some p =>
      if truthy (Some p) then
        tryIgnore
          (if isWindows env then
             call_spawnSync "taskkill"
               ["/pid"; Js.toString p; "/t"; "/f"] StdioIgnore ;;
             ret tt
           else
             childPids <- tryCatch (call_pidtree p) (ret []) ;;
             forOf (rev childPids)
               (fun childPid =>
                  tryIgnore (call_process_kill childPid signal)) ;;
             tryIgnore (call_process_kill p signal))
      else killDirectly target signal
  | None => killDirectly target signal
  end.

End ProcessUtils.

(** ** Reading a run *)

Definition outcome {World A} (x : result A * World * list Event)
  : result A := fst (fst x).
Definition worldAfter {World A} (x : result A * World * list Event)
  : World := snd (fst x).
Definition trace {World A} (x : result A * World * list Event)
  : list Event := snd x.

(** The child identifiers a [pgrep] answer leads the synchronous sweep to:
    none when the call threw or printed nothing. *)
Definition childPidsOf (r : completion SpawnSyncReturns) : list number :=
  match r with
  | Normal res =>
      match stdout res with
      | Some out => if Js.Boolean out then parseChildPids out else []
      | None => []
      end
  | Abrupt _ => []
  end.

Definition isTruthy (n : number) : bool := truthy (Some n).

(** The identifiers [process.kill] was called on, in order. *)
Fixpoint signalled (t : list Event) : list number :=
  match t with
  | [] => []
  | EvProcessKill p _ _ :: t' => p :: signalled t'
  | _ :: t' => signalled t'
  end.

(** The identifiers the [pgrep] answers of a run brought up and that the
    sweep takes for identifiers (the falsy ones are dropped on entry).
    [pgrep] is the one command run with the utf-8 encoding. *)
Fixpoint discovered (t : list Event) : list number :=
  match t with
  | [] => []
  | EvSpawnSync _ _ EncodingUtf8 r :: t' =>
      filter isTruthy (childPidsOf r) ++ discovered t'
  | _ :: t' => discovered t'
  end.

(** The identifiers a signal was delivered to: [process.kill] returned. *)
Fixpoint delivered (t : list Event) : list number :=
  match t with
  | [] => []
  | EvProcessKill p _ (Normal _) :: t' => p :: delivered t'
  | _ :: t' => delivered t'
  end.

(** How often the handle's own [kill] was called. *)
Fixpoint targetKills (t : list Event) : nat :=
  match t with
  | [] => O
  | EvTargetKill _ _ :: t' => S (targetKills t')
  | _ :: t' => targetKills t'
  end.

(** [signal = 'SIGKILL'] *)
Definition signalOr (signal : option Signals) : Signals :=
  match signal with Some s => s | None => SIGKILL end.

#[local] Unset Elimination Schemes.

(** A process tree as a test would lay it out. *)
Inductive ptree : Type :=
  | Node (root : number) (children : list ptree).

#[local] Set Elimination Schemes.

Definition rootOf (t : ptree) : number :=
  match t with Node p _ => p end.

Fixpoint postorder (t : ptree) : list number :=
  match t with
  | Node p cs => flat_map postorder cs ++ [p]
  end.

Fixpoint height (t : ptree) : nat :=
  match t with
  | Node _ cs => S (fold_right (fun c h => Nat.max (height c) h) O cs)
  end.

Fixpoint subtrees (t : ptree) : list ptree :=
  match t with
  | Node _ cs => t :: flat_map subtrees cs
  end.

(** ** A recording mock of the process table

    [table] gives each process its children.  The world is the list of the
    signals delivered so far: a signal to a process of the table is
    delivered, a signal to anything else fails with [ESRCH]. *)

Module Sim.

Definition World : Type := list (number * Signals).

Section Table.

Variable windows : bool.
Variable table : list (Z * list Z).

Definition childrenOf (p : Z) : list Z :=
  match find (fun e => fst e =? p) table with
  | Some e => snd e
  | None => []
  end.

Definition known (p : Z) : bool :=
  existsb (fun e => (fst e =? p) || existsb (Z.eqb p) (snd e)) table.

(** What [pgrep -P] prints: one identifier per line. *)
Definition lines (ps : list Z) : string :=
  String.concat ""
    (map (fun c => String.append (Js.toString (Num c))
                                 (String (ascii_of_nat 10) "")) ps).

Fixpoint descendants (depth : nat) (frontier : list Z) : list Z :=
  match depth with
  | O => []
  | S d =>
      match flat_map childrenOf frontier with
      | [] => []
      | kids => kids ++ descendants d kids
      end
  end.

Definition sim_spawnSync (command : string) (args : list string)
           (options : SpawnSyncOptions) (w : World)
  : completion SpawnSyncReturns * World :=
  if String.eqb command "pgrep" then
    match args with
    | [_; a] =>
        match Js.Number a with
        | Num p => (Normal (mkSpawnSyncReturns (Some (lines (childrenOf p)))), w)
        | NaN => (Normal (mkSpawnSyncReturns (Some "")), w)
        end
    | _ => (Normal (mkSpawnSyncReturns (Some "")), w)
    end
  else (Normal (mkSpawnSyncReturns None), w).

Definition sim_process_kill (p : number) (signal : Signals) (w : World)
  : completion unit * World :=
  match p with
  | Num z => if known z then (Normal tt, w ++ [(p, signal)])
             else (Abrupt "ESRCH", w)
  | NaN => (Abrupt "ERR_INVALID_ARG_TYPE", w)
  end.

Definition sim_pidtree (p : number) (w : World)
  : completion (list number) * World :=
  match p with
  | Num z => if known z
             then (Normal (map Num (descendants (List.length table) [z])), w)
             else (Abrupt "No matching pid found", w)
  | NaN => (Abrupt "No matching pid found", w)
  end.

Definition host : Env World :=
  mkEnv windows sim_spawnSync sim_process_kill sim_pidtree.

End Table.

(** A handle on process [z] that does not show its identifier. *)
Definition blindHandle (z : Z) : ProcessLike World :=
  mkProcessLike None (Some (fun signal w => (Normal tt, w ++ [(Num z, signal)]))).

(** A handle whose process is gone: no identifier, and [kill] throws. *)
Definition staleHandle : ProcessLike World :=
  mkProcessLike None (Some (fun _ w => (Abrupt "ESRCH", w))).

(** root 100 with children A = 200 and B = 300; A with child C = 400. *)
Definition exampleTable : list (Z * list Z) :=
  [(100, [200; 300]); (200, [400])].

(** An enumerator that answers every request with the list [l]. *)
Definition hostListing (l : list number) : Env World :=
  mkEnv false (sim_spawnSync exampleTable) (sim_process_kill exampleTable)
        (fun _ w => (Normal l, w)).

Definition exampleTree : ptree :=
  Node (Num 100) [Node (Num 200) [Node (Num 400) []]; Node (Num 300) []].

(** The depth of the example table under each identifier. *)
Definition exampleRank (n : number) : nat :=
  match n with
  | Num z => if z =? 100 then 2 else if z =? 200 then 1 else 0
  | NaN => 0
  end.

End Sim.


(** ** The paths through the two functions, spelled out

    Each definition below is what one path of the code amounts to once the
    [try] blocks are run; the equations that say so are proved further
    down.  The properties are stated on the functions themselves. *)

Section Spelled.

Context {World : Type}.
Variable env : Env World.
Implicit Types (w : World) (target : Target World) (p : number).

Definition taskkillArgs p : list string :=
  ["/pid"; Js.toString p; "/t"; "/f"].

Definition pgrepArgs p : list string := ["-P"; Js.toString p].

(** The answer of [pgrep -P p] in world [w], and the world after it. *)
Definition pgrepAt p w : completion SpawnSyncReturns * World :=
  spawnSync env "pgrep" (pgrepArgs p) EncodingUtf8 w.

(** What the direct-kill path does, spelled out. *)
Definition directRun target (s : Signals) w
  : result unit * World * list Event :=
  match target with
  | TNumber _ => (Ret tt, w, [])
  | TObject o =>
      match kill o with
      | Some k => (Ret tt, snd (k s w), [EvTargetKill s (fst (k s w))])
      | None => (Ret tt, w, [])
      end
  end.

(** What the Windows path does, spelled out. *)
Definition taskkillRun p w : result unit * World * list Event :=
  let cw := spawnSync env "taskkill" (taskkillArgs p) StdioIgnore w in
  (Ret tt, snd cw, [EvSpawnSync "taskkill" (taskkillArgs p) StdioIgnore (fst cw)]).

(** What the Unix path of the synchronous sweep does at a node, with
    [visit] for the recursive call. *)
Definition sweepRun (visit : number -> M World unit) p (s : Signals) w
  : result unit * World * list Event :=
  let cw := pgrepAt p w in
  let ev := EvSpawnSync "pgrep" (pgrepArgs p) EncodingUtf8 (fst cw) in
  let loop := forOf (childPidsOf (fst cw)) visit (snd cw) in
  match outcome loop with
  | OutOfFuel => (OutOfFuel, worldAfter loop, ev :: trace loop)
  | _ =>
      let kw := process_kill env p s (worldAfter loop) in
      (Ret tt, snd kw, ev :: trace loop ++ [EvProcessKill p s (fst kw)])
  end.

(** [process.kill] on each identifier of a list in turn, every failure
    dropped: the world reached and the calls made. *)
Fixpoint signalEach (s : Signals) (ps : list number) w
  : World * list Event :=
  match ps with
  | [] => (w, [])
  | c :: rest =>
      let kw := process_kill env c s w in
      let r := signalEach s rest (snd kw) in
      (fst r, EvProcessKill c s (fst kw) :: snd r)
  end.

(** Every call of [signalEach] is a [process.kill] with signal [s]. *)
Definition isKillWith (s : Signals) (e : Event) : Prop :=
  match e with
  | EvProcessKill _ s' _ => s' = s
  | _ => False
  end.

(** The list the enumerator handed over: empty when it failed. *)
Definition listed (r : completion (list number)) : list number :=
  match r with
  | Normal l => l
  | Abrupt _ => []
  end.

(** What the Unix path of the asynchronous sweep does, spelled out. *)
Definition flatRun p (s : Signals) w : result unit * World * list Event :=
  let cw := pidtree env p w in
  let loop := signalEach s (rev (listed (fst cw))) (snd cw) in
  let kw := process_kill env p s (fst loop) in
  (Ret tt, snd kw,
   EvPidtree p (fst cw) :: snd loop ++ [EvProcessKill p s (fst kw)]).

End Spelled.

(** ** Conditions on the outside *)

(** The ways child discovery fails: the query threw, the query tool is
    missing ([stdout] is [null]), or the target is gone and [pgrep] printed
    nothing. *)
Inductive discoveryFailed : completion SpawnSyncReturns -> Prop :=
  | QueryThrew (e : JsError) : discoveryFailed (Abrupt e)
  | NoOutput : discoveryFailed (Normal (mkSpawnSyncReturns None))
  | EmptyOutput : discoveryFailed (Normal (mkSpawnSyncReturns (Some ""))).

Section Conditions.

Context {World : Type}.
Variable env : Env World.
Implicit Types (w : World) (target : Target World) (p : number).

(** The parent-to-child relation that [pgrep] reports is acyclic and of
    finite depth: [rank] goes down from a process to each child the sweep
    takes for an identifier, whatever the world. *)
Definition ranked (rank : number -> nat) : Prop :=
  forall p w c,
    In c (childPidsOf (fst (pgrepAt env p w))) ->
    isTruthy c = true -> (rank c < rank p)%nat.

(** Fuel that is enough for a sweep from [target]. *)
Definition fuelFor (rank : number -> nat) target : nat :=
  match extractPid target with
  | Some p => S (S (rank p))
  | None => 1
  end.

(** The process table is the tree [t]: asked about a node of [t], [pgrep]
    answers with the roots of its children, in that order. *)
Definition mirrors (t : ptree) : Prop :=
  forall p cs,
    In (Node p cs) (subtrees t) ->
    isTruthy p = true /\
    forall w, childPidsOf (fst (pgrepAt env p w)) = map rootOf cs.

Definition handleGone target (s : Signals) w : Prop :=
  match target with
  | TNumber _ => True
  | TObject o =>
      match kill o with
      | Some k => snd (k s w) = w
      | None => True
      end
  end.

(** The process of [target] and its descendants are no longer in the
    process table of [w]: child discovery finds nothing, and a signal (or
    [taskkill], or the handle's [kill]) changes nothing; [process.kill]
    fails. *)
Definition gone target (s : Signals) w : Prop :=
  match extractPid target with
  | Some p =>
      if isTruthy p then
        if isWindows env then
          snd (spawnSync env "taskkill" (taskkillArgs p) StdioIgnore w) = w
        else
          childPidsOf (fst (pgrepAt env p w)) = [] /\
          snd (pgrepAt env p w) = w /\
          exists e, process_kill env p s w = (Abrupt e, w)
      else handleGone target s w
  | None => handleGone target s w
  end.

End Conditions.

(** ** More readings of a run *)


(** The calls the Unix branch of the synchronous sweep is made of, for
    signal [s]: [pgrep -P q] and [process.kill(q, s)], on an identifier [q]
    that is truthy. *)
Inductive sweepCall (s : Signals) : Event -> Prop :=
  | QueryChildren (q : number) (r : completion SpawnSyncReturns) :
      isTruthy q = true ->
      sweepCall s (EvSpawnSync "pgrep" (pgrepArgs q) EncodingUtf8 r)
  | SignalProcess (q : number) (r : completion unit) :
      isTruthy q = true ->
      sweepCall s (EvProcessKill q s r).

(** A handle of the mock that shows identifier [n]. *)
Definition shownHandle (n : number) : ProcessLike Sim.World :=
  mkProcessLike (Some n)
                (Some (fun signal w => (Normal tt, w ++ [(n, signal)]))).

(** ** Keyboard shortcuts (src/renderer/App/useAppKeyboardShortcuts.ts)

    The three [keydown] listeners of the hook.  What a listener does to an
    event is the list of its effects: [e.preventDefault()] and the calls of
    the callbacks it was given.  [matchesKeybinding] and the keybinding
    type come from another module and are taken as they are. *)

Module Shortcuts.

(** [s.toLowerCase()], on the ASCII range. *)
Definition lowerChar (c : ascii) : ascii :=
  let n := nat_of_ascii c in
  if ((65 <=? n) && (n <=? 90))%nat then ascii_of_nat (n + 32) else c.

Fixpoint toLowerCase (s : string) : string :=
  match s with
  | EmptyString => EmptyString
  | String c r => String (lowerChar c) (toLowerCase r)
  end.

(** The part of an [HTMLElement] that is looked at. *)
Record HTMLElement : Type := mkHTMLElement {
  hasAttribute : string -> bool;
  tagName : string;
  isContentEditable : bool
}.

Record KeyboardEvent : Type := mkKeyboardEvent {
  isComposing : bool;
  target : option HTMLElement;
  key : string;
  code : string;
  shiftKey : bool;
  metaKey : bool;
  ctrlKey : bool;
  altKey : bool
}.

(** [TabId] is a union of string literals. *)
Definition TabId : Type := string.

(** What a listener does. *)
Inductive Action : Type :=
  | PreventDefault
  | OnActionPanelToggle
  | OnTabSwitch (tab : TabId)
  | OnToggleWorktree
  | OnToggleRepository
  | OnSwitchActiveWorktree.

(** Lines 16-32. *)
Definition shouldSkipShortcut (e : KeyboardEvent) : bool :=
  if isComposing e then true
  else
    match target e with
    | None => false
    | Some target =>
        if hasAttribute target "data-keybinding-recording" then true
        else
          let tagName := toLowerCase (tagName target) in
          if String.eqb tagName "input" || String.eqb tagName "textarea"
          then true
          else if isContentEditable target then true
          else false
    end.

(** Lines 44-50: the listener of the action panel. *)
Definition handleKeyDown_actionPanel (e : KeyboardEvent) : list Action :=
  if shouldSkipShortcut e then []
  else if String.eqb (key e) "p" && shiftKey e && (metaKey e || ctrlKey e)
       then [PreventDefault; OnActionPanelToggle]
       else [].

Section Bindings.

Variable Keybinding : Type.
Variable matchesKeybinding : KeyboardEvent -> Keybinding -> bool.

Record MainTabKeybindings : Type := mkMainTabKeybindings {
  switchToAgent : Keybinding;
  switchToFile : Keybinding;
  switchToTerminal : Keybinding;
  switchToSourceControl : Keybinding
}.

Record WorkspaceKeybindings : Type := mkWorkspaceKeybindings {
  toggleWorktree : Keybinding;
  toggleRepository : Keybinding;
  switchActiveWorktree : Keybinding
}.

(** What [useSettingsStore.getState()] holds when the event arrives. *)
Record SettingsState : Type := mkSettingsState {
  mainTabKeybindings : MainTabKeybindings;
  workspaceKeybindings : WorkspaceKeybindings
}.

(** Lines 57-85: the listener of the main tabs. *)
Definition handleKeyDown_mainTab (state : SettingsState) (e : KeyboardEvent)
  : list Action :=
  if shouldSkipShortcut e then []
  else
    let bindings := mainTabKeybindings state in
    if matchesKeybinding e (switchToAgent bindings)
    then [PreventDefault; OnTabSwitch "chat"]
    else if matchesKeybinding e (switchToFile bindings)
    then [PreventDefault; OnTabSwitch "file"]
    else if matchesKeybinding e (switchToTerminal bindings)
    then [PreventDefault; OnTabSwitch "terminal"]
    else if matchesKeybinding e (switchToSourceControl bindings)
    then [PreventDefault; OnTabSwitch "source-control"]
    else [].

(** Lines 93-115: the listener of the workspace panels. *)
Definition handleKeyDown_workspace (state : SettingsState) (e : KeyboardEvent)
  : list Action :=
  if shouldSkipShortcut e then []
  else
    let bindings := workspaceKeybindings state in
    if matchesKeybinding e (toggleWorktree bindings)
    then [PreventDefault; OnToggleWorktree]
    else if matchesKeybinding e (toggleRepository bindings)
    then [PreventDefault; OnToggleRepository]
    else if matchesKeybinding e (switchActiveWorktree bindings)
    then [PreventDefault; OnSwitchActiveWorktree]
    else [].

(** The main-tab bindings with their tabs, in the order they are tried. *)
Definition mainTabTable (b : MainTabKeybindings) : list (Keybinding * TabId) :=
  [(switchToAgent b, "chat"); (switchToFile b, "file");
   (switchToTerminal b, "terminal");
   (switchToSourceControl b, "source-control")].

(** The workspace bindings with their callbacks, in the order they are
    tried. *)
Definition workspaceTable (b : WorkspaceKeybindings)
  : list (Keybinding * Action) :=
  [(toggleWorktree b, OnToggleWorktree);
   (toggleRepository b, OnToggleRepository);
   (switchActiveWorktree b, OnSwitchActiveWorktree)].

End Bindings.

(** The situations in which shortcuts are left alone: IME composition, a
    shortcut being recorded, typing in an input, a text area or an editable
    element. *)
Inductive editing (e : KeyboardEvent) : Prop :=
  | Composing : isComposing e = true -> editing e
  | Recording el :
      target e = Some el ->
      hasAttribute el "data-keybinding-recording" = true -> editing e
  | InInput el :
      target e = Some el -> toLowerCase (tagName el) = "input" -> editing e
  | InTextarea el :
      target e = Some el -> toLowerCase (tagName el) = "textarea" -> editing e
  | InEditable el :
      target e = Some el -> isContentEditable el = true -> editing e.

(** A listener either leaves the event alone or prevents the default and
    then makes one call. *)
Definition atomic (actions : list Action) : Prop :=
  actions = [] \/
  exists callback, callback <> PreventDefault /\
                   actions = [PreventDefault; callback].

(** An element as the browser reports it and an event on it. *)
Definition element (tag : string) (editable : bool) : HTMLElement :=
  mkHTMLElement (fun _ => false) tag editable.

Definition keydown (el : option HTMLElement) (k : string)
           (shift meta ctrl : bool) : KeyboardEvent :=
  mkKeyboardEvent false el k "" shift meta ctrl false.

End Shortcuts.

(** ** The status of a changed file (the commit file list component)

    The three helpers that pick the icon, the label and the colour of a
    file from its status letter.  [t] is the translation function. *)

Module CommitFiles.

(** The icon components. *)
Inductive Icon : Type :=
  | FilePlus
  | FileX
  | FileEdit.

Definition getFileIcon (status : string) : Icon :=
  if String.eqb status "A" then FilePlus
  else if String.eqb status "D" then FileX
  else FileEdit.

Definition getStatusText (status : string) (t : string -> string) : string :=
  if String.eqb status "A" then t "Added"
  else if String.eqb status "D" then t "Deleted"
  else if String.eqb status "M" then t "Modified"
  else if String.eqb status "R" then t "Renamed"
  else if String.eqb status "C" then t "Copied"
  else if String.eqb status "X" then t "Conflict"
  else "".

Definition getStatusColor (status : string) : string :=
  if String.eqb status "A" then "text-green-500"
  else if String.eqb status "D" then "text-red-500"
  else if String.eqb status "M" then "text-yellow-500"
  else if String.eqb status "R" || String.eqb status "C" then "text-blue-500"
  else if String.eqb status "X" then "text-orange-500"
  else "text-muted-foreground".

(** The status letters the helpers know. *)
Definition knownStatus (status : string) : bool :=
  existsb (String.eqb status) ["A"; "D"; "M"; "R"; "C"; "X"].

End CommitFiles.

(** ** Running the combinators *)

Section Running.

Context {World : Type}.
Implicit Types (w : World) (t : list Event).

Lemma tryIgnore_external (c : World -> completion unit * World)
      (ev : completion unit -> Event) w :
  tryIgnore (external c ev) w = (Ret tt, snd (c w), [ev (fst (c w))]).
Proof.
  unfold tryIgnore, tryCatch, external, ret.
  destruct (c w) as [[[]|e] w1]; reflexivity.
Qed.

Lemma bind_Ret {A B} (m : M World A) (f : A -> M World B) w a w1 t1 :
  m w = (Ret a, w1, t1) ->
  bind m f w = (outcome (f a w1), worldAfter (f a w1), t1 ++ trace (f a w1)).
Proof.
  intros E. unfold bind. rewrite E.
  destruct (f a w1) as [[r w2] t2]. reflexivity.
Qed.

Lemma forOf_cons {A} (x : A) xs (body : A -> M World unit) w w1 t1 :
  body x w = (Ret tt, w1, t1) ->
  forOf (x :: xs) body w =
    (outcome (forOf xs body w1), worldAfter (forOf xs body w1),
     t1 ++ trace (forOf xs body w1)).
Proof.
  intros E. simpl.
  exact (bind_Ret (body x) (fun _ => forOf xs body) w tt w1 t1 E).
Qed.

Lemma signalled_app t1 t2 : signalled (t1 ++ t2) = signalled t1 ++ signalled t2.
Proof.
  induction t1 as [|e t1 IH]; [reflexivity|].
  destruct e; simpl; now rewrite IH.
Qed.

Lemma discovered_app t1 t2 :
  discovered (t1 ++ t2) = discovered t1 ++ discovered t2.
Proof.
  induction t1 as [|e t1 IH]; [reflexivity|].
  destruct e as [c a [] r| | |]; simpl; rewrite IH; auto using app_assoc.
Qed.

End Running.

(** ** One equation per path through the two functions *)

Section Paths.

Context {World : Type}.
Variable env : Env World.
Implicit Types (w : World) (target : Target World) (p : number)
         (signal : option Signals).

Lemma killDirectly_run target s w :
  killDirectly target s w = directRun target s w.
Proof.
  unfold killDirectly, directRun.
  destruct target as [n|o]; [reflexivity|].
  destruct (kill o) as [k|]; [|reflexivity].
  unfold call_target_kill. apply tryIgnore_external.
Qed.

Lemma taskkill_run p w :
  tryIgnore (call_spawnSync env "taskkill" (taskkillArgs p) StdioIgnore ;; ret tt) w
  = taskkillRun env p w.
Proof.
  unfold tryIgnore, tryCatch, bind, call_spawnSync, external, ret, taskkillRun.
  destruct (spawnSync env "taskkill" (taskkillArgs p) StdioIgnore w)
    as [[r|e] w1]; reflexivity.
Qed.

Lemma killProcessTree_S fuel target signal :
  killProcessTree env (S fuel) target signal =
  match extractPid target with
  | Some p =>
      if truthy (Some p) then
        tryIgnore
          (if isWindows env then
             call_spawnSync env "taskkill" (taskkillArgs p) StdioIgnore ;;
             ret tt
           else
             tryIgnore
               (result <- call_spawnSync env "pgrep" (pgrepArgs p)
                            EncodingUtf8 ;;
                match stdout result with
                | Some out =>
                    if Js.Boolean out then
                      forOf (parseChildPids out)
                        (fun childPid =>
                           killProcessTree env fuel (TNumber childPid)
                                           (Some (signalOr signal)))
                    else ret tt
                | None => ret tt
                end) ;;
             tryIgnore (call_process_kill env p (signalOr signal)))
      else killDirectly target (signalOr signal)
  | None => killDirectly target (signalOr signal)
  end.
Proof. reflexivity. Qed.

Lemma killProcessTree_falsy fuel target signal w :
  truthy (extractPid target) = false ->
  killProcessTree env (S fuel) target signal w
  = directRun target (signalOr signal) w.
Proof.
  intros F. rewrite <- killDirectly_run, killProcessTree_S.
  destruct (extractPid target) as [p|]; [|reflexivity].
  now rewrite F.
Qed.

Lemma killProcessTree_windows fuel target signal p w :
  isWindows env = true ->
  extractPid target = Some p -> isTruthy p = true ->
  killProcessTree env (S fuel) target signal w = taskkillRun env p w.
Proof.
  intros Hw E T. unfold isTruthy in T.
  rewrite killProcessTree_S, E, T, Hw.
  apply taskkill_run.
Qed.

Lemma killProcessTree_unix fuel target signal p w :
  isWindows env = false ->
  extractPid target = Some p -> isTruthy p = true ->
  killProcessTree env (S fuel) target signal w
  = sweepRun env (fun c => killProcessTree env fuel (TNumber c)
                         (Some (signalOr signal)))
             p (signalOr signal) w.
Proof.
  intros Hw E T. unfold isTruthy in T.
  rewrite killProcessTree_S, E, T, Hw.
  unfold sweepRun, pgrepAt.
  set (s := signalOr signal).
  set (visit := fun c => killProcessTree env fuel (TNumber c) (Some s)).
  unfold tryIgnore at 1. unfold tryCatch at 1. unfold bind at 1.
  unfold tryIgnore at 1. unfold tryCatch at 1. unfold bind at 1.
  unfold call_spawnSync, external.
  destruct (spawnSync env "pgrep" (pgrepArgs p) EncodingUtf8 w)
    as [[res|e] w1]; simpl fst; simpl snd.
  - unfold childPidsOf.
    destruct (stdout res) as [out|].
    + destruct (Js.Boolean out).
      * destruct (forOf (parseChildPids out) visit w1) as [[[[]|e|] w2] t2];
          unfold outcome, worldAfter, trace; simpl;
          try reflexivity;
          unfold call_process_kill; rewrite tryIgnore_external;
          unfold ret; simpl; rewrite ?app_nil_r; reflexivity.
      * simpl. unfold ret at 1. simpl.
        unfold call_process_kill; rewrite tryIgnore_external. reflexivity.
    + simpl. unfold ret at 1. simpl.
      unfold call_process_kill; rewrite tryIgnore_external. reflexivity.
  - simpl. unfold ret at 1. simpl.
    unfold call_process_kill; rewrite tryIgnore_external. reflexivity.
Qed.

End Paths.

Section AsyncPaths.

Context {World : Type}.
Variable env : Env World.
Implicit Types (w : World) (target : Target World) (p : number)
         (signal : option Signals).

Lemma forOf_signalEach s ps w :
  forOf ps (fun c => tryIgnore (call_process_kill env c s)) w
  = (Ret tt, fst (signalEach env s ps w), snd (signalEach env s ps w)).
Proof.
  revert w. induction ps as [|c rest IH]; intros w; [reflexivity|].
  erewrite forOf_cons
    by (unfold call_process_kill; apply tryIgnore_external).
  rewrite IH. reflexivity.
Qed.

Lemma signalled_signalEach s ps w : signalled (snd (signalEach env s ps w)) = ps.
Proof.
  revert w. induction ps as [|c rest IH]; intros w; [reflexivity|].
  simpl. now rewrite IH.
Qed.

Lemma signalEach_kills s ps w : Forall (isKillWith s) (snd (signalEach env s ps w)).
Proof.
  revert w. induction ps as [|c rest IH]; intros w; simpl; constructor.
  - reflexivity.
  - apply IH.
Qed.

Lemma killProcessTreeAsync_falsy target signal w :
  truthy (extractPid target) = false ->
  killProcessTreeAsync env target signal w
  = directRun target (signalOr signal) w.
Proof.
  intros F. rewrite <- killDirectly_run. unfold killProcessTreeAsync.
  destruct (extractPid target) as [p|]; [|reflexivity].
  now rewrite F.
Qed.

Lemma killProcessTreeAsync_windows target signal p w :
  isWindows env = true ->
  extractPid target = Some p -> isTruthy p = true ->
  killProcessTreeAsync env target signal w = taskkillRun env p w.
Proof.
  intros Hw E T. unfold isTruthy in T.
  unfold killProcessTreeAsync. rewrite E, T, Hw.
  apply taskkill_run.
Qed.

Lemma killProcessTreeAsync_unix target signal p w :
  isWindows env = false ->
  extractPid target = Some p -> isTruthy p = true ->
  killProcessTreeAsync env target signal w = flatRun env p (signalOr signal) w.
Proof.
  intros Hw E T. unfold isTruthy in T.
  unfold killProcessTreeAsync. rewrite E, T, Hw.
  fold (signalOr signal). set (s := signalOr signal).
  unfold flatRun.
  unfold tryIgnore at 1. unfold tryCatch at 1. unfold bind at 1.
  unfold tryCatch at 1. unfold call_pidtree, external.
  destruct (pidtree env p w) as [[l|e] w1]; simpl fst; simpl snd;
    unfold listed.
  - unfold bind at 1. rewrite forOf_signalEach.
    unfold call_process_kill. rewrite tryIgnore_external.
    simpl. reflexivity.
  - unfold ret at 1. simpl. unfold bind at 1.
    unfold ret at 1. simpl.
    unfold call_process_kill. rewrite tryIgnore_external.
    reflexivity.
Qed.

End AsyncPaths.

(** ** Printing an identifier and reading it back *)

Module JsFacts.

Import Js.

Lemma trimEnd_noWhite s : noWhite s = true -> trimEnd s = s.
Proof.
  induction s as [|c r IH]; [reflexivity|].
  simpl. intros H. apply andb_prop in H as [Hc Hr].
  rewrite (IH Hr). destruct r; [|reflexivity].
  apply negb_true_iff in Hc. now rewrite Hc.
Qed.

Lemma trim_noWhite s : noWhite s = true -> trim s = s.
Proof.
  intros H. unfold trim.
  replace (trimStart s) with s; [now apply trimEnd_noWhite|].
  destruct s as [|c r]; [reflexivity|].
  simpl in *. apply andb_prop in H as [Hc _].
  apply negb_true_iff in Hc. now rewrite Hc.
Qed.

Lemma noWhite_uint d : noWhite (DecimalString.NilEmpty.string_of_uint d) = true.
Proof. induction d; simpl; auto. Qed.

Lemma startsUnsigned_uint d :
  d <> Decimal.Nil -> startsUnsigned (DecimalString.NilEmpty.string_of_uint d) = true.
Proof. destruct d; simpl; auto; congruence. Qed.

Lemma Number_unsigned s z :
  noWhite s = true -> startsUnsigned s = true ->
  unsignedDigits s = Some z -> Number s = Num z.
Proof.
  intros W U D. unfold Number. rewrite (trim_noWhite _ W).
  destruct s as [|c r]; [discriminate|].
  simpl in U. apply andb_prop in U as [U1 U2].
  apply negb_true_iff in U1, U2. rewrite U1, U2, D. reflexivity.
Qed.

Lemma unsignedDigits_pos p :
  unsignedDigits (DecimalString.NilEmpty.string_of_uint (Pos.to_uint p)) = Some (Zpos p).
Proof.
  unfold unsignedDigits.
  destruct (DecimalString.NilEmpty.string_of_uint (Pos.to_uint p)) eqn:E.
  - exfalso. apply (DecimalPos.Unsigned.to_uint_nonnil p).
    destruct (Pos.to_uint p); simpl in E; congruence.
  - rewrite <- E, DecimalString.NilEmpty.usu. simpl. unfold Z.of_uint.
    now rewrite DecimalPos.Unsigned.of_to.
Qed.

Lemma Number_toString z : Number (toString (Num z)) = Num z.
Proof.
  destruct z as [|p|p]; [reflexivity| |].
  - unfold toString. simpl.
    assert (N : Pos.to_uint p <> Decimal.Nil)
      by apply DecimalPos.Unsigned.to_uint_nonnil.
    replace (DecimalString.NilZero.string_of_uint (Pos.to_uint p))
      with (DecimalString.NilEmpty.string_of_uint (Pos.to_uint p))
      by (unfold DecimalString.NilZero.string_of_uint; destruct (Pos.to_uint p); congruence).
    apply Number_unsigned;
      auto using noWhite_uint, startsUnsigned_uint, unsignedDigits_pos.
  - unfold toString. simpl.
    assert (N : Pos.to_uint p <> Decimal.Nil)
      by apply DecimalPos.Unsigned.to_uint_nonnil.
    replace (DecimalString.NilZero.string_of_uint (Pos.to_uint p))
      with (DecimalString.NilEmpty.string_of_uint (Pos.to_uint p))
      by (unfold DecimalString.NilZero.string_of_uint; destruct (Pos.to_uint p); congruence).
    unfold Number.
    rewrite trim_noWhite
      by (simpl; apply noWhite_uint).
    simpl. now rewrite unsignedDigits_pos.
Qed.

End JsFacts.

(** ** The reference normalizer and the direct-kill path *)

(** C4. The identifier is read off the reference by a total function with
    no effect: a bare number comes back unchanged, a handle gives the
    identifier it carries, or none when it carries none.  Inside both
    entry points the step itself touches nothing: on a handle with neither
    identifier nor [kill], they return with the world as it was and no call
    made. *)
Theorem extractPid_normalizes {World : Type} (env : Env World) :
  (forall n : number, extractPid (TNumber (World := World) n) = Some n) /\
  (forall n k, extractPid (TObject (mkProcessLike (World := World) (Some n) k))
               = Some n) /\
  (forall k, extractPid (TObject (mkProcessLike (World := World) None k))
             = None) /\
  (forall fuel signal w,
      killProcessTree env (S fuel) (TObject (mkProcessLike None None)) signal w
      = (Ret tt, w, []) /\
      killProcessTreeAsync env (TObject (mkProcessLike None None)) signal w
      = (Ret tt, w, [])).
Proof.
  repeat split; reflexivity.
Qed.

(** C5. A reference that yields no usable identifier but has a [kill]
    capability: each entry point calls that capability once, with the
    requested signal, makes no other call, and returns whether or not the
    capability threw. *)
Theorem fallback_invokes_capability_once
        {World : Type} (env : Env World) (o : ProcessLike World)
        (k : Signals -> World -> completion unit * World)
        (signal : option Signals) (fuel : nat) (w : World) :
  truthy (pid o) = false ->
  kill o = Some k ->
  let s := signalOr signal in
  let sync := killProcessTree env (S fuel) (TObject o) signal w in
  let async := killProcessTreeAsync env (TObject o) signal w in
  sync = (Ret tt, snd (k s w), [EvTargetKill s (fst (k s w))]) /\
  async = sync /\
  targetKills (trace sync) = 1%nat /\
  targetKills (trace async) = 1%nat.
Proof.
  intros F K s sync async. subst sync async.
  rewrite killProcessTree_falsy, killProcessTreeAsync_falsy by exact F.
  unfold directRun. rewrite K. fold s. auto.
Qed.

Lemma fallback_invokes_capability_once_witness :
  let env := Sim.host false Sim.exampleTable in
  let k := fun (_ : Signals) (w : Sim.World) => (Abrupt (A := unit) "ESRCH", w) in
  truthy (pid Sim.staleHandle) = false /\
  kill Sim.staleHandle = Some k /\
  killProcessTree env 1 (TObject Sim.staleHandle) (Some "SIGTERM") []
  = (Ret tt, [], [EvTargetKill "SIGTERM" (Abrupt "ESRCH")]) /\
  killProcessTreeAsync env (TObject Sim.staleHandle) (Some "SIGTERM") []
  = (Ret tt, [], [EvTargetKill "SIGTERM" (Abrupt "ESRCH")]).
Proof.
  intros env k.
  split; [reflexivity|]. split; [reflexivity|].
  pose proof (fallback_invokes_capability_once env Sim.staleHandle k
                (Some "SIGTERM") 0 [] eq_refl eq_refl) as H.
  cbv zeta in H. destruct H as (Hs & Ha & _).
  split; [exact Hs|]. rewrite Ha. exact Hs.
Defined.

(** C9. The identifier [0] counts as no identifier.  Given the bare number
    [0], either entry point returns with no call made and the world as it
    was; a handle whose [pid] is [0] goes to the direct-kill path: its
    [kill] is called and nothing else. *)
Theorem zero_pid_is_absent {World : Type} (env : Env World)
        (signal : option Signals) (fuel : nat) (w : World) :
  killProcessTree env (S fuel) (TNumber (Num 0)) signal w = (Ret tt, w, []) /\
  killProcessTreeAsync env (TNumber (Num 0)) signal w = (Ret tt, w, []) /\
  forall k,
    let handle := TObject (mkProcessLike (Some (Num 0)) (Some k)) in
    let s := signalOr signal in
    killProcessTree env (S fuel) handle signal w
    = (Ret tt, snd (k s w), [EvTargetKill s (fst (k s w))]) /\
    killProcessTreeAsync env handle signal w
    = (Ret tt, snd (k s w), [EvTargetKill s (fst (k s w))]).
Proof.
  split; [|split].
  - now rewrite killProcessTree_falsy.
  - now rewrite killProcessTreeAsync_falsy.
  - intros k handle s. subst handle.
    now rewrite killProcessTree_falsy, killProcessTreeAsync_falsy.
Qed.

(** ** The Windows branch *)

(** C10. On Windows, for a target with a usable identifier, the signal
    argument plays no part: both entry points make the one call
    [taskkill /pid <pid> /t /f] and nothing else, so two runs that differ
    only in the signal are the same run. *)
Theorem windows_ignores_signal {World : Type} (env : Env World)
        (target : Target World) (p : number)
        (signal1 signal2 : option Signals) (fuel : nat) (w : World) :
  isWindows env = true ->
  extractPid target = Some p ->
  isTruthy p = true ->
  let cw := spawnSync env "taskkill" ["/pid"; Js.toString p; "/t"; "/f"]
                      StdioIgnore w in
  let run := (Ret tt, snd cw,
              [EvSpawnSync "taskkill" ["/pid"; Js.toString p; "/t"; "/f"]
                           StdioIgnore (fst cw)]) in
  killProcessTree env (S fuel) target signal1 w = run /\
  killProcessTree env (S fuel) target signal2 w = run /\
  killProcessTreeAsync env target signal1 w = run /\
  killProcessTreeAsync env target signal2 w = run.
Proof.
  intros Hw E T cw run.
  rewrite !(killProcessTree_windows env fuel target _ p w Hw E T).
  rewrite !(killProcessTreeAsync_windows env target _ p w Hw E T).
  repeat split.
Qed.

Lemma windows_ignores_signal_witness :
  let env := Sim.host true Sim.exampleTable in
  isWindows env = true /\
  extractPid (TNumber (World := Sim.World) (Num 100)) = Some (Num 100) /\
  isTruthy (Num 100) = true /\
  killProcessTree env 1 (TNumber (Num 100)) (Some "SIGTERM") []
  = killProcessTreeAsync env (TNumber (Num 100)) None [].
Proof.
  intros env. repeat (split; [reflexivity|]).
  pose proof (windows_ignores_signal env (TNumber (Num 100)) (Num 100)
                (Some "SIGTERM") None 0 [] eq_refl eq_refl eq_refl) as H.
  cbv zeta in H. destruct H as (H1 & _ & _ & H4).
  rewrite H1, H4. reflexivity.
Defined.

(** ** The asynchronous sweep *)

(** C3. On the Unix branch the asynchronous terminator asks the enumerator
    once, for one flat list; it then calls [process.kill], with the one
    signal, on the identifiers of that list in the reverse of the order
    returned, and on the root identifier last; it makes no other call. *)
Theorem async_signals_reverse_then_root {World : Type} (env : Env World)
        (target : Target World) (p : number) (signal : option Signals)
        (w w1 : World) (l : list number) :
  isWindows env = false ->
  extractPid target = Some p ->
  isTruthy p = true ->
  pidtree env p w = (Normal l, w1) ->
  let r := killProcessTreeAsync env target signal w in
  outcome r = Ret tt /\
  exists kills,
    trace r = EvPidtree p (Normal l) :: kills /\
    Forall (isKillWith (signalOr signal)) kills /\
    signalled kills = rev l ++ [p].
Proof.
  intros Hw E T P r. subst r.
  rewrite (killProcessTreeAsync_unix env target signal p w Hw E T).
  unfold flatRun. rewrite P. simpl fst. simpl snd.
  split; [reflexivity|].
  eexists. split; [reflexivity|]. split.
  - apply Forall_app. split; [apply signalEach_kills|].
    constructor; [reflexivity|constructor].
  - rewrite signalled_app, signalled_signalEach. reflexivity.
Qed.

Lemma async_signals_reverse_then_root_witness :
  let l := [Num 100; Num 200; Num 300; Num 400] in
  pidtree (Sim.hostListing l) (Num 100) [] = (Normal l, []) /\
  signalled (trace (killProcessTreeAsync (Sim.hostListing l)
                      (TNumber (Num 100)) None []))
  = [Num 400; Num 300; Num 200; Num 100; Num 100].
Proof.
  intros l. split; [reflexivity|].
  destruct (async_signals_reverse_then_root (Sim.hostListing l)
              (TNumber (Num 100)) (Num 100) None [] [] l
              eq_refl eq_refl eq_refl eq_refl) as (_ & kills & Ht & _ & Hk).
  rewrite Ht. exact Hk.
Defined.

(** ** Discovery failures *)

(** C6. On the Unix branch, a node whose child discovery fails is still
    signalled.  In the synchronous sweep the node behaves as a leaf: one
    [pgrep], one [process.kill] on the node, a normal return, and the loop
    over its siblings goes on from there.  In the asynchronous sweep a
    failing enumerator counts as an empty list, and the root is signalled
    after it. *)
Theorem discovery_failure_still_signals {World : Type} (env : Env World)
        (p : number) (signal : option Signals) (fuel : nat) (w : World) :
  isWindows env = false ->
  isTruthy p = true ->
  let s := signalOr signal in
  (discoveryFailed (fst (pgrepAt env p w)) ->
   let kw := process_kill env p s (snd (pgrepAt env p w)) in
   let node := [EvSpawnSync "pgrep" ["-P"; Js.toString p] EncodingUtf8
                            (fst (pgrepAt env p w));
                EvProcessKill p s (fst kw)] in
   killProcessTree env (S fuel) (TNumber p) signal w = (Ret tt, snd kw, node) /\
   forall siblings,
     let visit := fun c => killProcessTree env (S fuel) (TNumber c) signal in
     let rest := forOf siblings visit (snd kw) in
     forOf (p :: siblings) visit w
     = (outcome rest, worldAfter rest, node ++ trace rest)) /\
  (forall e w1,
      pidtree env p w = (Abrupt e, w1) ->
      let kw := process_kill env p s w1 in
      killProcessTreeAsync env (TNumber p) signal w
      = (Ret tt, snd kw,
         [EvPidtree p (Abrupt e); EvProcessKill p s (fst kw)])).
Proof.
  intros Hw T s. split.
  - intros D kw node.
    assert (N : killProcessTree env (S fuel) (TNumber p) signal w
                = (Ret tt, snd kw, node)).
    { rewrite (killProcessTree_unix env fuel (TNumber p) signal p w Hw eq_refl T).
      unfold sweepRun.
      assert (C : childPidsOf (fst (pgrepAt env p w)) = [])
        by (destruct D; reflexivity).
      rewrite C. reflexivity. }
    split; [exact N|].
    intros siblings visit rest.
    exact (forOf_cons p siblings visit w (snd kw) node N).
  - intros e w1 P kw.
    rewrite (killProcessTreeAsync_unix env (TNumber p) signal p w Hw eq_refl T).
    unfold flatRun. rewrite P. reflexivity.
Qed.

Lemma discovery_failure_still_signals_witness :
  let env := Sim.host false Sim.exampleTable in
  discoveryFailed (fst (pgrepAt env (Num 999) [])) /\
  pidtree env (Num 999) [] = (Abrupt "No matching pid found", []) /\
  signalled (trace (killProcessTree env 1 (TNumber (Num 999)) None []))
  = [Num 999] /\
  signalled (trace (killProcessTreeAsync env (TNumber (Num 999)) None []))
  = [Num 999].
Proof.
  intros env.
  assert (D : discoveryFailed (fst (pgrepAt env (Num 999) [])))
    by apply EmptyOutput.
  destruct (discovery_failure_still_signals env (Num 999) None 0 []
              eq_refl eq_refl) as [Hs Ha].
  split; [exact D|]. split; [reflexivity|]. split.
  - destruct (Hs D) as [N _]. rewrite N. reflexivity.
  - rewrite (Ha _ _ eq_refl). reflexivity.
Defined.

(** ** Sweeping what is already gone *)

(** C7. When the process of the reference and its descendants are gone,
    the synchronous terminator returns normally, leaves the world as it
    found it, discovers no child and delivers no signal; called twice in
    succession, the second call does what the first did and the world
    after both is the world before. *)
Theorem second_sweep_is_noop {World : Type} (env : Env World)
        (target : Target World) (signal : option Signals) (fuel : nat)
        (w : World) :
  gone env target (signalOr signal) w ->
  let call := killProcessTree env (S fuel) target signal in
  let once := call w in
  let twice := bind call (fun _ => call) w in
  outcome once = Ret tt /\ worldAfter once = w /\
  discovered (trace once) = [] /\ delivered (trace once) = [] /\
  outcome twice = Ret tt /\ worldAfter twice = w /\
  trace twice = trace once ++ trace once.
Proof.
  intros G call once twice.
  assert (H : once = (Ret tt, w, trace once) /\
              discovered (trace once) = [] /\ delivered (trace once) = []).
  { subst once call. unfold gone in G.
    destruct (extractPid target) as [p|] eqn:E.
    - destruct (isTruthy p) eqn:T.
      + destruct (isWindows env) eqn:Hw.
        * rewrite (killProcessTree_windows env fuel target signal p w Hw E T).
          unfold taskkillRun. simpl. rewrite G. auto.
        * destruct G as (C & Wp & e & K).
          rewrite (killProcessTree_unix env fuel target signal p w Hw E T).
          unfold sweepRun. rewrite C, Wp.
          cbn [forOf ret outcome worldAfter trace fst snd app].
          rewrite K.
          cbn [discovered delivered fst snd trace]. rewrite C. auto.
      + rewrite killProcessTree_falsy by (rewrite E; exact T).
        unfold directRun. unfold handleGone in G.
        destruct target as [n|o]; [auto|].
        destruct (kill o) as [k|]; [|auto].
        simpl. rewrite G. auto.
    - rewrite killProcessTree_falsy by (rewrite E; reflexivity).
      unfold directRun. unfold handleGone in G.
      destruct target as [n|o]; [auto|].
      destruct (kill o) as [k|]; [|auto].
      simpl. rewrite G. auto. }
  destruct H as (H1 & H2 & H3).
  assert (O : outcome once = Ret tt) by (rewrite H1; reflexivity).
  assert (Wo : worldAfter once = w) by (rewrite H1; reflexivity).
  repeat (split; [assumption|]).
  subst twice. unfold once in H1.
  rewrite (bind_Ret call (fun _ => call) w tt w (trace once) H1).
  fold once. rewrite O, Wo. auto.
Qed.

Lemma second_sweep_is_noop_witness :
  let env := Sim.host false Sim.exampleTable in
  let call := killProcessTree env 1 (TNumber (Num 999)) None in
  gone env (TNumber (Num 999)) SIGKILL [(Num 100, SIGKILL)] /\
  worldAfter (bind call (fun _ => call) [(Num 100, SIGKILL)])
  = [(Num 100, SIGKILL)].
Proof.
  intros env call.
  assert (G : gone env (TNumber (Num 999)) SIGKILL [(Num 100, SIGKILL)]).
  { split; [reflexivity|]. split; [reflexivity|].
    exists "ESRCH". reflexivity. }
  split; [exact G|].
  exact (proj1 (proj2 (proj2 (proj2 (proj2 (proj2
           (second_sweep_is_noop env (TNumber (Num 999)) None 0
              [(Num 100, SIGKILL)] G))))))).
Defined.

(** ** The recursion of the synchronous sweep *)

Section Recursion.

Context {World : Type}.
Variable env : Env World.
Hypothesis unix : isWindows env = false.
Implicit Types (w : World) (p c : number) (s : Signals).

Lemma directRun_outcome (target : Target World) s w :
  outcome (directRun target s w) = Ret tt.
Proof.
  unfold directRun. destruct target as [n|o]; [reflexivity|].
  destruct (kill o); reflexivity.
Qed.

Lemma visit_falsy fuel c signal w :
  isTruthy c = false ->
  killProcessTree env (S fuel) (TNumber c) signal w = (Ret tt, w, []).
Proof. intros F. now rewrite killProcessTree_falsy. Qed.

Lemma visit_node fuel (target : Target World) p signal w :
  extractPid target = Some p -> isTruthy p = true ->
  killProcessTree env (S fuel) target signal w
  = killProcessTree env (S fuel) (TNumber p) (Some (signalOr signal)) w.
Proof.
  intros E T.
  rewrite (killProcessTree_unix env fuel target signal p w unix E T).
  now rewrite (killProcessTree_unix env fuel (TNumber p) _ p w unix eq_refl T).
Qed.

Lemma filter_cons_app {A} (f : A -> bool) x xs :
  filter f (x :: xs) = filter f [x] ++ filter f xs.
Proof. simpl. destruct (f x); reflexivity. Qed.

(** A loop whose every visit returns, signals what it discovers plus the
    identifier visited, and does not depend on one more unit of fuel. *)
Lemma forOf_visits (visit visit' : number -> M World unit) cs :
  (forall c w, In c cs ->
     outcome (visit c w) = Ret tt /\
     Permutation (signalled (trace (visit c w)))
                 (filter isTruthy [c] ++ discovered (trace (visit c w))) /\
     visit' c w = visit c w) ->
  forall w,
    outcome (forOf cs visit w) = Ret tt /\
    Permutation (signalled (trace (forOf cs visit w)))
                (filter isTruthy cs ++ discovered (trace (forOf cs visit w))) /\
    forOf cs visit' w = forOf cs visit w.
Proof.
  induction cs as [|c cs IH]; intros H w.
  - repeat split. constructor.
  - destruct (H c w (or_introl eq_refl)) as (O & P & Q).
    destruct (visit c w) as [[r w1] t1] eqn:V.
    unfold outcome in O. simpl in O. subst r.
    unfold trace in P. simpl in P.
    destruct (IH (fun c' w' I => H c' w' (or_intror I)) w1) as (O' & P' & Q').
    rewrite (forOf_cons c cs visit w w1 t1 V).
    rewrite (forOf_cons c cs visit' w w1 t1 Q).
    rewrite Q'. repeat split; [exact O'|].
    unfold trace at 1 3. cbn [snd].
    rewrite signalled_app, discovered_app, filter_cons_app.
    rewrite <- app_assoc.
    apply Permutation_trans
      with ((filter isTruthy [c] ++ discovered t1)
            ++ filter isTruthy cs ++ discovered (trace (forOf cs visit w1))).
    + now apply Permutation_app.
    + rewrite <- app_assoc. apply Permutation_app_head.
      rewrite !app_assoc. apply Permutation_app_tail.
      apply Permutation_app_comm.
Qed.

Variable rank : number -> nat.
Hypothesis descending : ranked env rank.

Lemma sweep_node fuel : forall p s w,
  isTruthy p = true -> (S (rank p) < fuel)%nat ->
  let r := killProcessTree env fuel (TNumber p) (Some s) w in
  outcome r = Ret tt /\
  Permutation (signalled (trace r)) (p :: discovered (trace r)) /\
  killProcessTree env (S fuel) (TNumber p) (Some s) w = r.
Proof.
  induction fuel as [|n IH]; intros p s w T B; [lia|].
  cbv zeta.
  rewrite (killProcessTree_unix env (S n) (TNumber p) (Some s) p w unix eq_refl T).
  rewrite (killProcessTree_unix env n (TNumber p) (Some s) p w unix eq_refl T).
  cbn [signalOr]. unfold sweepRun.
  set (cs := childPidsOf (fst (pgrepAt env p w))).
  destruct (forOf_visits
              (fun c => killProcessTree env n (TNumber c) (Some s))
              (fun c => killProcessTree env (S n) (TNumber c) (Some s))
              cs) with (w := snd (pgrepAt env p w)) as (O & P & Q).
  { intros c w' I. destruct (isTruthy c) eqn:Tc.
    - assert (D : (rank c < rank p)%nat) by exact (descending p w c I Tc).
      destruct (IH c s w' Tc ltac:(lia)) as (O & P & Q).
      simpl filter. unfold isTruthy in Tc. fold (isTruthy c) in Tc.
      rewrite Tc. auto.
    - destruct n as [|m]; [lia|].
      rewrite !visit_falsy by exact Tc.
      simpl filter. rewrite Tc. repeat split. constructor. }
  rewrite Q, O. cbn [outcome trace fst snd].
  repeat split.
  change (?e :: ?t ++ ?k) with ([e] ++ t ++ k).
  rewrite !signalled_app, !discovered_app.
  cbn [signalled discovered app]. fold cs. rewrite !app_nil_r.
  apply Permutation_sym, Permutation_cons_app, Permutation_sym.
  rewrite app_nil_r. exact P.
Qed.

Lemma sweep_any_fuel p s w fuel :
  isTruthy p = true -> (S (rank p) < fuel)%nat ->
  killProcessTree env fuel (TNumber p) (Some s) w
  = killProcessTree env (S (S (rank p))) (TNumber p) (Some s) w.
Proof.
  intros T B. induction B as [|m B IH].
  - reflexivity.
  - rewrite <- IH. now apply sweep_node.
Qed.

(** The postorder sweep of a mirrored tree *)
Lemma height_child q (ks : list ptree) (k : ptree) :
  In k ks -> (S (height k) <= height (Node q ks))%nat.
Proof.
  simpl. intros I. apply le_n_S.
  induction ks as [|x xs IH]; [contradiction|].
  simpl. destruct I as [->|I]; [lia|]. specialize (IH I). lia.
Qed.

Lemma mirrors_child q (ks : list ptree) (k : ptree) :
  In k ks -> mirrors env (Node q ks) -> mirrors env k.
Proof.
  intros I H p' ks' I'. apply H. simpl. right.
  apply in_flat_map. now exists k.
Qed.

Lemma subtrees_self t : In t (subtrees t).
Proof. destruct t. simpl. now left. Qed.

Lemma forOf_postorder (visit : number -> M World unit) (ks : list ptree) :
  (forall k w, In k ks ->
     outcome (visit (rootOf k) w) = Ret tt /\
     signalled (trace (visit (rootOf k) w)) = postorder k) ->
  forall w,
    outcome (forOf (map rootOf ks) visit w) = Ret tt /\
    signalled (trace (forOf (map rootOf ks) visit w)) = flat_map postorder ks.
Proof.
  induction ks as [|k ks IH]; intros H w; [now split|].
  destruct (H k w (or_introl eq_refl)) as (O & P).
  destruct (visit (rootOf k) w) as [[r w1] t1] eqn:V.
  unfold outcome in O. simpl in O. subst r.
  unfold trace in P. simpl in P.
  destruct (IH (fun k' w' I => H k' w' (or_intror I)) w1) as (O' & P').
  cbn [map]. rewrite (forOf_cons (rootOf k) _ visit w w1 t1 V).
  split; [exact O'|].
  unfold trace at 1. cbn [snd flat_map].
  now rewrite signalled_app, P, P'.
Qed.

Lemma sweep_tree fuel : forall t s w,
  mirrors env t -> (height t <= fuel)%nat ->
  let r := killProcessTree env fuel (TNumber (rootOf t)) (Some s) w in
  outcome r = Ret tt /\ signalled (trace r) = postorder t.
Proof.
  induction fuel as [|n IH]; intros [p ks] s w H B; [simpl in B; lia|].
  destruct (H p ks (subtrees_self _)) as [T C].
  cbv zeta. cbn [rootOf].
  rewrite (killProcessTree_unix env n (TNumber p) (Some s) p w unix eq_refl T).
  cbn [signalOr]. unfold sweepRun. rewrite C.
  destruct (forOf_postorder
              (fun c => killProcessTree env n (TNumber c) (Some s)) ks)
    with (w := snd (pgrepAt env p w)) as (O & P).
  { intros k w' I. apply IH.
    - exact (mirrors_child p ks k I H).
    - pose proof (height_child p ks k I). lia. }
  rewrite O. cbn [outcome trace fst snd]. split; [reflexivity|].
  change (?e :: ?t ++ ?k) with ([e] ++ t ++ k).
  rewrite !signalled_app. cbn [signalled app postorder].
  now rewrite P.
Qed.

End Recursion.

(** ** The mock satisfies the conditions *)

Lemma example_ranked :
  ranked (Sim.host false Sim.exampleTable) Sim.exampleRank.
Proof.
  intros [z|] w c I T.
  - unfold pgrepAt, pgrepArgs in I. cbn [Sim.host spawnSync] in I.
    unfold Sim.sim_spawnSync in I.
    change (String.eqb "pgrep" "pgrep") with true in I. cbv iota in I.
    rewrite JsFacts.Number_toString in I.
    unfold Sim.childrenOf, Sim.exampleTable in I. cbn [find fst snd] in I.
    unfold Sim.exampleRank at 2.
    rewrite (Z.eqb_sym z 100), (Z.eqb_sym z 200).
    destruct (100 =? z) eqn:E1.
    + vm_compute in I. destruct I as [<-|[<-|[]]]; vm_compute; lia.
    + destruct (200 =? z) eqn:E2.
      * vm_compute in I. destruct I as [<-|[]]. vm_compute. lia.
      * vm_compute in I. contradiction.
  - vm_compute in I. contradiction.
Qed.

Lemma example_mirrors :
  mirrors (Sim.host false Sim.exampleTable) Sim.exampleTree.
Proof.
  intros p ks I. simpl in I.
  destruct I as [E|[E|[E|[E|[]]]]]; injection E as <- <-;
    (split; [reflexivity|intros w; reflexivity]).
Qed.

(** ** The synchronous sweep *)

(** C1. On the Unix branch, when the process table is a tree [t] and the
    target is its root, the synchronous terminator returns and the
    identifiers it called [process.kill] on are, in order, the postorder
    of [t]: every subtree before its root, the requested root last.  (For
    root 100 with children 200 and 300, and 200 with child 400, that is
    400, 200, 300, 100.) *)
Theorem sync_sweep_is_postorder {World : Type} (env : Env World)
        (t : ptree) (target : Target World) (signal : option Signals)
        (fuel : nat) (w : World) :
  isWindows env = false ->
  mirrors env t ->
  extractPid target = Some (rootOf t) ->
  (height t <= fuel)%nat ->
  let r := killProcessTree env fuel target signal w in
  outcome r = Ret tt /\ signalled (trace r) = postorder t.
Proof.
  intros Hw H E B.
  destruct fuel as [|n]; [destruct t; simpl in B; lia|].
  assert (T : isTruthy (rootOf t) = true).
  { destruct t as [p ks]. exact (proj1 (H p ks (subtrees_self _))). }
  cbv zeta. rewrite (visit_node env Hw n target (rootOf t) signal w E T).
  now apply sweep_tree.
Qed.

Lemma sync_sweep_is_postorder_witness :
  let env := Sim.host false Sim.exampleTable in
  isWindows env = false /\
  mirrors env Sim.exampleTree /\
  (height Sim.exampleTree <= 3)%nat /\
  signalled (trace (killProcessTree env 3 (TNumber (Num 100)) None []))
  = [Num 400; Num 200; Num 300; Num 100].
Proof.
  intros env.
  split; [reflexivity|]. split; [exact example_mirrors|].
  split; [simpl; lia|].
  exact (proj2 (sync_sweep_is_postorder env Sim.exampleTree
                  (TNumber (Num 100)) None 3 [] eq_refl example_mirrors
                  eq_refl ltac:(simpl; lia))).
Defined.

(** With enough fuel the sweep from a target with a usable identifier
    returns. *)
Lemma sweep_returns {World : Type} (env : Env World)
      (rank : number -> nat) (target : Target World) (p : number)
      (signal : option Signals) (fuel : nat) (w : World) :
  isWindows env = false ->
  ranked env rank ->
  extractPid target = Some p ->
  isTruthy p = true ->
  (S (rank p) < fuel)%nat ->
  outcome (killProcessTree env fuel target signal w) = Ret tt.
Proof.
  intros Hw R E T B.
  destruct fuel as [|n]; [lia|].
  rewrite (visit_node env Hw n target p signal w E T).
  exact (proj1 (sweep_node env Hw rank R (S n) p (signalOr signal) w T B)).
Qed.

(** C8. On the Unix branch, when the parent-to-child relation that
    discovery reports is acyclic and of finite depth ([rank] goes down
    along it), the recursive sweep returns: with fuel above the rank of
    the target it ends normally, more fuel changes nothing, and the
    identifiers it signalled are the target and the discovered
    identifiers, each once for each time it was discovered. *)
Theorem sync_sweep_terminates {World : Type} (env : Env World)
        (rank : number -> nat) (target : Target World) (p : number)
        (signal : option Signals) (fuel : nat) (w : World) :
  isWindows env = false ->
  ranked env rank ->
  extractPid target = Some p ->
  isTruthy p = true ->
  (S (rank p) < fuel)%nat ->
  let r := killProcessTree env fuel target signal w in
  outcome r = Ret tt /\
  Permutation (signalled (trace r)) (p :: discovered (trace r)) /\
  forall fuel', (S (rank p) < fuel')%nat ->
                killProcessTree env fuel' target signal w = r.
Proof.
  intros Hw R E T B. cbv zeta.
  destruct fuel as [|n]; [lia|].
  rewrite (visit_node env Hw n target p signal w E T).
  destruct (sweep_node env Hw rank R (S n) p (signalOr signal) w T B)
    as (O & P & _).
  split; [exact O|]. split; [exact P|].
  intros [|m] B'; [lia|].
  rewrite (visit_node env Hw m target p signal w E T).
  rewrite (sweep_any_fuel env Hw rank R p _ w (S m) T B').
  now rewrite (sweep_any_fuel env Hw rank R p _ w (S n) T B).
Qed.

Lemma sync_sweep_terminates_witness :
  let env := Sim.host false Sim.exampleTable in
  ranked env Sim.exampleRank /\
  (S (Sim.exampleRank (Num 100)) < 4)%nat /\
  outcome (killProcessTree env 4 (TNumber (Num 100)) None []) = Ret tt.
Proof.
  intros env.
  split; [exact example_ranked|]. split; [simpl; lia|].
  exact (proj1 (sync_sweep_terminates env Sim.exampleRank
                  (TNumber (Num 100)) (Num 100) None 4 []
                  eq_refl example_ranked eq_refl eq_refl
                  ltac:(simpl; lia))).
Defined.

(** ** Nothing is thrown to the caller *)

(** C2. Whatever the reference, the signal and the behaviour of the
    outside, no entry point throws.  The asynchronous terminator always
    returns normally.  The synchronous terminator never ends in a throw,
    however far the recursion is followed, and returns normally as soon as
    the fuel covers the depth of what discovery reports. *)
Theorem no_error_reaches_caller {World : Type} (env : Env World)
        (target : Target World) (signal : option Signals) (w : World) :
  outcome (killProcessTreeAsync env target signal w) = Ret tt /\
  (forall fuel e,
      outcome (killProcessTree env fuel target signal w) <> Throw e) /\
  (forall rank fuel,
      ranked env rank -> (fuelFor rank target <= fuel)%nat ->
      outcome (killProcessTree env fuel target signal w) = Ret tt).
Proof.
  destruct (truthy (extractPid target)) eqn:T.
  - destruct (extractPid target) as [p|] eqn:E; [|discriminate].
    change (isTruthy p = true) in T.
    destruct (isWindows env) eqn:Hw.
    + split; [|split].
      * now rewrite (killProcessTreeAsync_windows env target signal p w Hw E T).
      * intros [|n] e; [discriminate|].
        now rewrite (killProcessTree_windows env n target signal p w Hw E T).
      * intros rank [|n] _ B; [unfold fuelFor in B; rewrite E in B; lia|].
        now rewrite (killProcessTree_windows env n target signal p w Hw E T).
    + split; [|split].
      * now rewrite (killProcessTreeAsync_unix env target signal p w Hw E T).
      * intros [|n] e; [discriminate|].
        rewrite (killProcessTree_unix env n target signal p w Hw E T).
        unfold sweepRun.
        destruct (outcome (forOf _ _ _)); discriminate.
      * intros rank fuel R B. unfold fuelFor in B. rewrite E in B.
        exact (sweep_returns env rank target p signal fuel w Hw R E T B).
  - split; [|split].
    + rewrite killProcessTreeAsync_falsy by exact T.
      apply directRun_outcome.
    + intros [|n] e; [discriminate|].
      rewrite killProcessTree_falsy by exact T.
      now rewrite directRun_outcome.
    + intros rank [|n] _ B.
      * unfold fuelFor in B. destruct (extractPid target); simpl in B; lia.
      * rewrite killProcessTree_falsy by exact T.
        apply directRun_outcome.
Qed.

Lemma no_error_reaches_caller_witness :
  let env := Sim.host false Sim.exampleTable in
  ranked env Sim.exampleRank /\
  (fuelFor Sim.exampleRank (TNumber (World := Sim.World) (Num 100)) <= 4)%nat /\
  outcome (killProcessTree env 4 (TNumber (Num 100)) (Some "SIGTERM") [])
  = Ret tt.
Proof.
  intros env.
  split; [exact example_ranked|]. split; [vm_compute; lia|].
  exact (proj2 (proj2 (no_error_reaches_caller env (TNumber (Num 100))
                         (Some "SIGTERM") []))
           Sim.exampleRank 4%nat example_ranked ltac:(vm_compute; lia)).
Defined.

(** ** What a synchronous sweep is made of *)

Section SweepCalls.

Context {World : Type}.
Variable env : Env World.
Implicit Types (w : World) (p : number) (s : Signals).

Lemma forOf_trace_Forall {A} (P : Event -> Prop)
      (visit : A -> M World unit) (xs : list A) :
  (forall x w, Forall P (trace (visit x w))) ->
  forall w, Forall P (trace (forOf xs visit w)).
Proof.
  intros H. induction xs as [|x xs IH]; intros w; [constructor|].
  cbn [forOf]. unfold bind. specialize (H x w).
  destruct (visit x w) as [[[[]|e|] w1] t1]; unfold trace in *; cbn [snd] in *;
    try exact H.
  specialize (IH w1). destruct (forOf xs visit w1) as [[r w2] t2].
  cbn [snd] in *. apply Forall_app. now split.
Qed.




Hypothesis unix : isWindows env = false.

Lemma sweep_calls_number fuel : forall p s w,
  Forall (sweepCall s)
         (trace (killProcessTree env fuel (TNumber p) (Some s) w)).
Proof.
  induction fuel as [|n IH]; intros p s w; [constructor|].
  destruct (isTruthy p) eqn:T.
  - rewrite (killProcessTree_unix env n (TNumber p) (Some s) p w unix eq_refl T).
    cbn [signalOr]. unfold sweepRun.
    pose proof (forOf_trace_Forall (sweepCall s)
                  (fun c => killProcessTree env n (TNumber c) (Some s))
                  (childPidsOf (fst (pgrepAt env p w)))
                  (fun c w' => IH c s w') (snd (pgrepAt env p w))) as L.
    destruct (outcome (forOf _ _ _)); cbn [trace snd];
      (constructor; [apply QueryChildren; exact T|]);
      try exact L;
      (apply Forall_app; split; [exact L|]);
      (constructor; [apply SignalProcess; exact T|constructor]).
  - rewrite visit_falsy by exact T. constructor.
Qed.


End SweepCalls.

(** X1. On the Unix branch, for a target with a usable identifier, every
    call of a synchronous run, finished or not, is [pgrep -P q] or
    [process.kill(q, signal)] for a truthy [q] and the signal of the call:
    it runs no other command, never asks [pidtree], never calls the
    target's own [kill], and never signals [0] or [NaN], whatever [pgrep]
    prints. *)
Theorem sync_sweep_calls {World : Type} (env : Env World)
        (target : Target World) (signal : option Signals)
        (fuel : nat) (w : World) :
  isWindows env = false ->
  truthy (extractPid target) = true ->
  Forall (sweepCall (signalOr signal))
         (trace (killProcessTree env fuel target signal w)).
Proof.
  intros Hw T.
  destruct (extractPid target) as [p|] eqn:E; [|discriminate].
  destruct fuel as [|n]; [constructor|].
  rewrite (visit_node env Hw n target p signal w E T).
  apply sweep_calls_number. exact Hw.
Qed.

Lemma sync_sweep_calls_witness :
  let env := Sim.host false Sim.exampleTable in
  isWindows env = false /\
  truthy (extractPid (TNumber (World := Sim.World) (Num 100))) = true /\
  Forall (sweepCall "SIGTERM")
         (trace (killProcessTree env 2 (TNumber (Num 100)) (Some "SIGTERM") [])).
Proof.
  intros env. split; [reflexivity|]. split; [reflexivity|].
  exact (sync_sweep_calls env (TNumber (Num 100)) (Some "SIGTERM") 2 []
           eq_refl eq_refl).
Defined.



(** X3. A handle that shows a usable identifier is treated exactly as that
    identifier, by both entry points and on both platforms: the run is the
    run on the bare number, and the handle's own [kill] is not called. *)
Theorem handle_with_pid_is_its_pid {World : Type} (env : Env World)
        (o : ProcessLike World) (p : number) (signal : option Signals)
        (fuel : nat) (w : World) :
  pid o = Some p ->
  isTruthy p = true ->
  killProcessTree env fuel (TObject o) signal w
  = killProcessTree env fuel (TNumber p) signal w /\
  killProcessTreeAsync env (TObject o) signal w
  = killProcessTreeAsync env (TNumber p) signal w /\
  targetKills (trace (killProcessTree env fuel (TObject o) signal w)) = 0%nat /\
  targetKills (trace (killProcessTreeAsync env (TObject o) signal w)) = 0%nat.
Proof.
  intros E T.
  assert (S1 : killProcessTree env fuel (TObject o) signal w
               = killProcessTree env fuel (TNumber p) signal w).
  { destruct fuel as [|n]; [reflexivity|].
    destruct (isWindows env) eqn:Hw.
    - rewrite (killProcessTree_windows env n (TObject o) signal p w Hw E T).
      now rewrite (killProcessTree_windows env n (TNumber p) signal p w Hw eq_refl T).
    - rewrite (killProcessTree_unix env n (TObject o) signal p w Hw E T).
      now rewrite (killProcessTree_unix env n (TNumber p) signal p w Hw eq_refl T). }
  assert (S2 : killProcessTreeAsync env (TObject o) signal w
               = killProcessTreeAsync env (TNumber p) signal w).
  { destruct (isWindows env) eqn:Hw.
    - rewrite (killProcessTreeAsync_windows env (TObject o) signal p w Hw E T).
      now rewrite (killProcessTreeAsync_windows env (TNumber p) signal p w Hw eq_refl T).
    - rewrite (killProcessTreeAsync_unix env (TObject o) signal p w Hw E T).
      now rewrite (killProcessTreeAsync_unix env (TNumber p) signal p w Hw eq_refl T). }
  split; [exact S1|]. split; [exact S2|]. split.
  - destruct fuel as [|n]; [reflexivity|].
    destruct (isWindows env) eqn:Hw.
    + now rewrite (killProcessTree_windows env n (TObject o) signal p w Hw E T).
    + assert (F : Forall (sweepCall (signalOr signal))
                    (trace (killProcessTree env (S n) (TObject o) signal w))).
      { rewrite (visit_node env Hw n (TObject o) p signal w E T).
        apply sweep_calls_number. exact Hw. }
      induction F as [|e t He _ IH]; [reflexivity|].
      destruct He; exact IH.
  - destruct (isWindows env) eqn:Hw.
    + now rewrite (killProcessTreeAsync_windows env (TObject o) signal p w Hw E T).
    + rewrite (killProcessTreeAsync_unix env (TObject o) signal p w Hw E T).
      unfold flatRun. cbn [trace snd targetKills].
      pose proof (signalEach_kills env (signalOr signal)
                    (rev (listed (fst (pidtree env p w))))
                    (snd (pidtree env p w))) as F.
      induction F as [|e t He _ IH]; [reflexivity|].
      destruct e; try contradiction. exact IH.
Qed.

Lemma handle_with_pid_is_its_pid_witness :
  let env := Sim.host false Sim.exampleTable in
  pid (shownHandle (Num 200)) = Some (Num 200) /\
  isTruthy (Num 200) = true /\
  signalled (trace (killProcessTree env 2 (TObject (shownHandle (Num 200)))
                      None []))
  = [Num 400; Num 200].
Proof.
  intros env. split; [reflexivity|]. split; [reflexivity|].
  rewrite (proj1 (handle_with_pid_is_its_pid env (shownHandle (Num 200))
                    (Num 200) None 2 [] eq_refl eq_refl)).
  reflexivity.
Defined.

(** ** Reading what pgrep prints *)

Module ParseFacts.

Import Js.













End ParseFacts.


(** ** The keyboard listeners *)

Section Listeners.

Import Shortcuts.

Variable Keybinding : Type.
Variable matchesKeybinding : KeyboardEvent -> Keybinding -> bool.


Lemma editing_skipped e : editing e -> shouldSkipShortcut e = true.
Proof.
  unfold shouldSkipShortcut.
  intros [C|el E A|el E L|el E L|el E C].
  - now rewrite C.
  - destruct (isComposing e); [reflexivity|]. now rewrite E, A.
  - destruct (isComposing e); [reflexivity|]. rewrite E, L.
    destruct (hasAttribute el _); reflexivity.
  - destruct (isComposing e); [reflexivity|]. rewrite E, L.
    destruct (hasAttribute el _); reflexivity.
  - destruct (isComposing e); [reflexivity|]. rewrite E, C.
    destruct (hasAttribute el _); [reflexivity|].
    destruct (_ || _); reflexivity.
Qed.

Lemma skipped_editing e : shouldSkipShortcut e = true -> editing e.
Proof.
  unfold shouldSkipShortcut.
  destruct (isComposing e) eqn:C; [intros _; now apply Composing|].
  destruct (target e) as [el|] eqn:E; [|discriminate].
  destruct (hasAttribute el "data-keybinding-recording") eqn:A;
    [intros _; now apply (Recording e el)|].
  destruct (String.eqb_spec (toLowerCase (tagName el)) "input") as [L|_];
    [intros _; now apply (InInput e el)|].
  destruct (String.eqb_spec (toLowerCase (tagName el)) "textarea") as [L|_];
    [intros _; now apply (InTextarea e el)|].
  cbn [orb].
  destruct (isContentEditable el) eqn:I; [|discriminate].
  intros _. now apply (InEditable e el).
Qed.

(** X5. While the user is editing (IME composition, a shortcut being
    recorded, the target an [input] or [textarea] in any letter case, or
    an editable element), none of the three listeners does anything: no
    [preventDefault], no callback, whatever the key and the bindings.
    Outside these situations no event is skipped. *)
Theorem editing_disables_shortcuts (state : SettingsState Keybinding)
        (e : KeyboardEvent) :
  (editing e ->
   handleKeyDown_actionPanel e = [] /\
   handleKeyDown_mainTab Keybinding matchesKeybinding state e = [] /\
   handleKeyDown_workspace Keybinding matchesKeybinding state e = []) /\
  (shouldSkipShortcut e = true <-> editing e).
Proof.
  split.
  - intros H. apply editing_skipped in H.
    unfold handleKeyDown_actionPanel, handleKeyDown_mainTab,
      handleKeyDown_workspace.
    rewrite H. auto.
  - split; [apply skipped_editing|apply editing_skipped].
Qed.

(** X6. Each listener is all or nothing on every event: it either leaves
    the event alone, or calls [preventDefault] and then exactly one
    callback. *)
Theorem listeners_act_atomically (state : SettingsState Keybinding)
        (e : KeyboardEvent) :
  atomic (handleKeyDown_actionPanel e) /\
  atomic (handleKeyDown_mainTab Keybinding matchesKeybinding state e) /\
  atomic (handleKeyDown_workspace Keybinding matchesKeybinding state e).
Proof.
  assert (R : forall a, a <> PreventDefault -> atomic [PreventDefault; a])
    by (intros a Ha; right; now exists a).
  unfold handleKeyDown_actionPanel, handleKeyDown_mainTab,
    handleKeyDown_workspace.
  destruct (shouldSkipShortcut e); [repeat split; now left|].
  repeat split.
  - destruct (_ && _); [apply R; discriminate|now left].
  - cbv zeta.
    repeat (match goal with
            | |- atomic (if ?b then _ else _) => destruct b
            end; [apply R; discriminate|]).
    now left.
  - cbv zeta.
    repeat (match goal with
            | |- atomic (if ?b then _ else _) => destruct b
            end; [apply R; discriminate|]).
    now left.
Qed.

(** X7. Outside editing, the bindings are tried in a fixed order and the
    first that matches the event wins: agent, file, terminal, source
    control for the tabs; worktree, repository, active worktree for the
    workspace.  An event that matches no binding is left alone. *)
Theorem first_matching_binding_wins (state : SettingsState Keybinding)
        (e : KeyboardEvent) :
  shouldSkipShortcut e = false ->
  handleKeyDown_mainTab Keybinding matchesKeybinding state e
  = match find (fun bt => matchesKeybinding e (fst bt))
               (mainTabTable Keybinding (mainTabKeybindings Keybinding state))
    with
    | Some bt => [PreventDefault; OnTabSwitch (snd bt)]
    | None => []
    end /\
  handleKeyDown_workspace Keybinding matchesKeybinding state e
  = match find (fun ba => matchesKeybinding e (fst ba))
               (workspaceTable Keybinding
                               (workspaceKeybindings Keybinding state))
    with
    | Some ba => [PreventDefault; snd ba]
    | None => []
    end.
Proof.
  intros S.
  unfold handleKeyDown_mainTab, handleKeyDown_workspace,
    mainTabTable, workspaceTable.
  rewrite S. cbn [find fst snd]. split.
  - repeat (match goal with
            | |- context [if matchesKeybinding e ?b then _ else _] =>
                destruct (matchesKeybinding e b); [reflexivity|]
            end).
    reflexivity.
  - repeat (match goal with
            | |- context [if matchesKeybinding e ?b then _ else _] =>
                destruct (matchesKeybinding e b); [reflexivity|]
            end).
    reflexivity.
Qed.

End Listeners.

Lemma first_matching_binding_wins_witness :
  let matches := fun (e : Shortcuts.KeyboardEvent) (k : string) =>
                   String.eqb (Shortcuts.key e) k in
  let state :=
    Shortcuts.mkSettingsState string
      (Shortcuts.mkMainTabKeybindings string "1" "2" "2" "4")
      (Shortcuts.mkWorkspaceKeybindings string "w" "r" "s") in
  let e := Shortcuts.keydown
             (Some (Shortcuts.element "DIV" false)) "2" false true false in
  Shortcuts.shouldSkipShortcut e = false /\
  Shortcuts.handleKeyDown_mainTab string matches state e
  = [Shortcuts.PreventDefault; Shortcuts.OnTabSwitch "file"] /\
  Shortcuts.handleKeyDown_workspace string matches state e = [].
Proof.
  intros matches state e. split; [reflexivity|].
  destruct (first_matching_binding_wins string matches state e eq_refl)
    as [H1 H2].
  rewrite H1, H2. split; reflexivity.
Defined.

(** X8. The action panel opens on exactly one kind of event: outside
    editing, the key ["p"] in lower case, with Shift and with Meta or
    Control.  In particular the key ["P"] never opens it. *)
Theorem action_panel_shortcut (e : Shortcuts.KeyboardEvent) :
  (Shortcuts.handleKeyDown_actionPanel e
   = [Shortcuts.PreventDefault; Shortcuts.OnActionPanelToggle]
   <->
   Shortcuts.shouldSkipShortcut e = false /\
   Shortcuts.key e = "p" /\
   Shortcuts.shiftKey e = true /\
   (Shortcuts.metaKey e = true \/ Shortcuts.ctrlKey e = true)) /\
  (Shortcuts.key e = "P" -> Shortcuts.handleKeyDown_actionPanel e = []).
Proof.
  unfold Shortcuts.handleKeyDown_actionPanel.
  destruct (Shortcuts.shouldSkipShortcut e).
  - split; [|reflexivity]. split; [discriminate|]. intros [H _]. discriminate.
  - destruct (String.eqb_spec (Shortcuts.key e) "p") as [K|K].
    + split.
      * destruct (Shortcuts.shiftKey e), (Shortcuts.metaKey e),
          (Shortcuts.ctrlKey e); cbn; split; intros H;
          try discriminate; auto;
          destruct H as (_ & _ & H1 & [H2|H2]); discriminate.
      * intros P. rewrite P in K. discriminate.
    + split; [|reflexivity]. cbn [andb]. split; [discriminate|].
      intros (_ & H & _). contradiction.
Qed.

(** ** The status helpers *)

(** X9. A status letter outside A, D, M, R, C, X gets the neutral
    presentation from all three helpers: the edit icon, the muted colour
    and the empty label, without a translation being asked for.  A known
    letter gets a colour of its own, and its label is a translation. *)
Theorem unknown_status_is_neutral (status : string) :
  (CommitFiles.knownStatus status = false ->
   CommitFiles.getFileIcon status = CommitFiles.FileEdit /\
   CommitFiles.getStatusColor status = "text-muted-foreground" /\
   forall t, CommitFiles.getStatusText status t = "") /\
  (CommitFiles.knownStatus status = true ->
   CommitFiles.getStatusColor status <> "text-muted-foreground" /\
   exists label, forall t, CommitFiles.getStatusText status t = t label).
Proof.
  unfold CommitFiles.knownStatus, CommitFiles.getFileIcon,
    CommitFiles.getStatusColor, CommitFiles.getStatusText.
  cbn [existsb].
  destruct (String.eqb status "A"), (String.eqb status "D"),
    (String.eqb status "M"), (String.eqb status "R"),
    (String.eqb status "C"), (String.eqb status "X"); cbn;
    (split; intros H;
     [first [discriminate H
            |split; [reflexivity|split; [reflexivity|intros t; reflexivity]]]
     |first [discriminate H
            |split; [discriminate|eexists; intros t; reflexivity]]]).
Qed.

(** X10. Icon and colour agree: the added icon goes with green and the
    deleted icon with red, and only with them; renamed and copied files
    share one colour. *)
Theorem icon_and_colour_agree (status : string) :
  (CommitFiles.getFileIcon status = CommitFiles.FilePlus <->
   CommitFiles.getStatusColor status = "text-green-500") /\
  (CommitFiles.getFileIcon status = CommitFiles.FileX <->
   CommitFiles.getStatusColor status = "text-red-500") /\
  (CommitFiles.getStatusColor status = "text-blue-500" <->
   status = "R" \/ status = "C").
Proof.
  unfold CommitFiles.getFileIcon, CommitFiles.getStatusColor.
  destruct (String.eqb_spec status "A") as [->|A]; [cbn; repeat split;
    intros H; try discriminate H; auto; destruct H; discriminate|].
  destruct (String.eqb_spec status "D") as [->|D]; [cbn; repeat split;
    intros H; try discriminate H; auto; destruct H; discriminate|].
  destruct (String.eqb_spec status "M") as [->|M]; [cbn; repeat split;
    intros H; try discriminate H; auto; destruct H; discriminate|].
  destruct (String.eqb_spec status "R") as [->|R]; [cbn; repeat split;
    intros H; try discriminate H; auto|].
  destruct (String.eqb_spec status "C") as [->|C]; [cbn; repeat split;
    intros H; try discriminate H; auto|].
  cbn [orb].
  destruct (String.eqb_spec status "X") as [->|X];
    repeat split; intros H; try discriminate H;
    destruct H; contradiction.
Qed.

Lemma editing_disables_shortcuts_witness :
  let matches := fun (e : Shortcuts.KeyboardEvent) (k : string) =>
                   String.eqb (Shortcuts.key e) k in
  let state :=
    Shortcuts.mkSettingsState string
      (Shortcuts.mkMainTabKeybindings string "1" "2" "3" "4")
      (Shortcuts.mkWorkspaceKeybindings string "w" "r" "s") in
  let e := Shortcuts.keydown
             (Some (Shortcuts.element "TextArea" false)) "1" false true false in
  Shortcuts.editing e /\
  Shortcuts.handleKeyDown_mainTab string matches state e = [].
Proof.
  intros matches state e.
  assert (H : Shortcuts.editing e)
    by (apply (Shortcuts.InTextarea e (Shortcuts.element "TextArea" false));
        reflexivity).
  split; [exact H|].
  exact (proj1 (proj2 (proj1 (editing_disables_shortcuts string matches state e)
                         H))).
Defined.

Lemma action_panel_shortcut_witness :
  let e := Shortcuts.keydown None "P" true true false in
  Shortcuts.key e = "P" /\ Shortcuts.handleKeyDown_actionPanel e = [].
Proof.
  intros e. split; [reflexivity|].
  exact (proj2 (action_panel_shortcut e) eq_refl).
Defined.

Lemma unknown_status_is_neutral_witness :
  CommitFiles.knownStatus "U" = false /\
  CommitFiles.getStatusColor "U" = "text-muted-foreground" /\
  CommitFiles.knownStatus "R" = true /\
  CommitFiles.getStatusColor "R" <> "text-muted-foreground".
Proof.
  split; [reflexivity|]. split.
  - exact (proj1 (proj2 (proj1 (unknown_status_is_neutral "U") eq_refl))).
  - split; [reflexivity|].
    exact (proj1 (proj2 (unknown_status_is_neutral "R") eq_refl)).
Defined.
